(** * CommerceDashboard: the churn-prediction service

    A shallow embedding of the three Python files of the repository

    - [server/ml/train_churn_model.py]: the Model Artifact Producer,
    - [server/ml/predict.py]: the Prediction Service,
    - [server/app.py]: the HTTP facade,

    and the properties the specification states about them.  The fourth
    file, [server/test_post.py], is a manual client that posts the sample
    record to a deployed instance; it has no logic to embed.

    Python objects are modelled by the data they carry.  A raising
    computation returns [Raise e]; a [try]/[except] is a [match] on the
    result.  The third-party libraries (numpy, scikit-learn, pickle, Flask)
    are parameters of the development: a record of the operations the
    source calls on them. *)

From Stdlib Require Import QArith Qround Qabs Lqa.
From stdpp Require Import gmap strings list fin_maps.

Local Open Scope Z_scope.
Local Set Warnings "-register-all".

(** ** Exceptions and results *)

(** The instances of Python's [Exception] the code can meet.  [KeyError]
    carries the missing key, the others their message.  [LibraryError]
    stands for whatever numpy, scikit-learn, pickle or Flask raise: its class
    name and its message. *)
Inductive exn : Type :=
  | NameError (name : string)
  | KeyError (key : string)
  | TypeError (msg : string)
  | IndexError (msg : string)
  | ValueError (msg : string)
  | AttributeError (msg : string)
  | FileNotFoundError (path : string)
  | LibraryError (cls msg : string).

Inductive res (A : Type) : Type :=
  | Ok (a : A)
  | Raise (e : exn).
Arguments Ok {A} a.
Arguments Raise {A} e.

#[global] Instance res_ret : MRet res := fun A a => Ok a.

#[global] Instance res_bind : MBind res := fun A B k c =>
  match c with
  | Ok a => k a
  | Raise e => Raise e
  end.

(** [repr] of a string that holds no quote, backslash or control character
    (all the keys of this program are such strings). *)
Definition py_repr_str (s : string) : string := "'" +:+ s +:+ "'".

(** [str(e)]: a [KeyError] prints the [repr] of its key, a [NameError] the
    interpreter's sentence, every other exception its message. *)
Definition py_str (e : exn) : string :=
  match e with
  | NameError name => "name " +:+ py_repr_str name +:+ " is not defined"
  | KeyError key => py_repr_str key
  | TypeError msg => msg
  | IndexError msg => msg
  | ValueError msg => msg
  | AttributeError msg => msg
  | FileNotFoundError path =>
      "[Errno 2] No such file or directory: " +:+ py_repr_str path
  | LibraryError _ msg => msg
  end.

(** ** Values *)

(** What [request.get_json()] yields and [jsonify] accepts: the Python image
    of a JSON document.  A [float] is the rational its binary64 value denotes
    (NaN and infinities are no JSON numbers). *)
Inductive pyval : Type :=
  | PNone
  | PBool (b : bool)
  | PInt (z : Z)
  | PFloat (x : Q)
  | PStr (s : string)
  | PList (l : list pyval)
  | PDict (d : gmap string pyval).

(** A numpy scalar: an element of an [int64] or a [float64] array. *)
Inductive npscalar : Type :=
  | NpInt (z : Z)
  | NpFloat (x : Q).

Definition np_value (s : npscalar) : Q :=
  match s with
  | NpInt z => inject_Z z
  | NpFloat x => x
  end.

(** ** binary64 arithmetic, as far as the program uses it *)

(** Round half to even of a rational to an integer. *)
Definition round_half_even (q : Q) : Z :=
  let n := Qnum q in
  let d := Z.pos (Qden q) in
  let f := n / d in
  let r := n mod d in
  if 2 * r <? d then f
  else if d <? 2 * r then f + 1
  else if Z.even f then f else f + 1.

(** The exponent [e] with [2^e <= q < 2^(e+1)], for [q > 0]. *)
Definition Qpow2 (e : Z) : Q :=
  if 0 <=? e then inject_Z (2 ^ e) else / inject_Z (2 ^ (- e)).

Definition Qlog2_floor (q : Q) : Z :=
  let e := Z.log2 (Qnum q) - Z.log2 (Z.pos (Qden q)) in
  if Qle_bool (Qpow2 e) q then e else e - 1.

(** The binary64 value nearest to [q], ties to even, for [q] in the normal
    range: a 53-bit significand scaled by a power of two.  (The program
    rounds only numbers of magnitude 0 or at least 1/100.) *)
Definition RN53 (q : Q) : Q :=
  if Qeq_bool q 0 then 0%Q
  else
    let a := Qabs q in
    let s := 52 - Qlog2_floor a in
    let m := inject_Z (round_half_even (a * Qpow2 s)) in
    let r := Qred (m * Qpow2 (- s)) in
    if Qle_bool 0 q then r else Qred (- r).

(** [round(x, 2)] on a float: the decimal with two fractional digits that
    is nearest to the exact value of [x], ties to even, converted back to
    binary64 (CPython's [double_round], through the correctly rounded
    [dtoa] and [strtod]). *)
Definition py_round2 (x : Q) : Q :=
  RN53 (inject_Z (round_half_even (x * 100)) / 100).

(** A two-digit decimal [k/100] whose binary64 value lies between 0 and 1,
    and at or above 1/2 when [k] is at least 50. *)
Definition percent_ok (k : Z) : bool :=
  let c := RN53 (inject_Z k / 100) in
  Qle_bool 0 c && Qle_bool c 1 && ((k <? 50) || Qle_bool (1 # 2) c).

(** Two more checks on the two-digit decimals: their binary64 values are
    ordered as the decimals are, and rounding the binary64 value of [k/100]
    to two decimals gives [k] back. *)
Definition percent_le (k1 k2 : Z) : bool :=
  (k2 <? k1)
  || Qle_bool (RN53 (inject_Z k1 / 100)) (RN53 (inject_Z k2 / 100)).

Definition percent_fixed (k : Z) : bool :=
  round_half_even (RN53 (inject_Z k / 100) * 100) =? k.

(** [int(s)] on a numpy scalar truncates toward zero. *)
Definition py_int (s : npscalar) : Z :=
  match s with
  | NpInt z => z
  | NpFloat x => Z.quot (Qnum x) (Z.pos (Qden x))
  end.

(** [float(s)] on a numpy scalar. *)
Definition py_float (s : npscalar) : Q :=
  match s with
  | NpInt z => RN53 (inject_Z z)
  | NpFloat x => x
  end.

(** ** Built-in operations *)

(** [o[key]] with a string key. *)
Definition py_getitem (o : pyval) (key : string) : res pyval :=
  match o with
  | PDict d =>
      match d !! key with
      | Some v => Ok v
      | None => Raise (KeyError key)
      end
  | PList _ =>
      Raise (TypeError "list indices must be integers or slices, not str")
  | PStr _ => Raise (TypeError "string indices must be integers, not 'str'")
  | PNone => Raise (TypeError "'NoneType' object is not subscriptable")
  | PBool _ => Raise (TypeError "'bool' object is not subscriptable")
  | PInt _ => Raise (TypeError "'int' object is not subscriptable")
  | PFloat _ => Raise (TypeError "'float' object is not subscriptable")
  end.

(** [a[0]] on the first axis of an array. *)
Definition np_first {A : Type} (a : list A) : res A :=
  match a !! 0%nat with
  | Some x => Ok x
  | None =>
      Raise (IndexError "index 0 is out of bounds for axis 0 with size 0")
  end.

(** [max(row)]: the first greatest element; an empty argument raises. *)
Fixpoint max_from (best : npscalar) (l : list npscalar) : npscalar :=
  match l with
  | [] => best
  | x :: l' =>
      max_from (if Qle_bool (np_value x) (np_value best) then best else x) l'
  end.

Definition py_max (row : list npscalar) : res npscalar :=
  match row with
  | [] => Raise (ValueError "max() arg is an empty sequence")
  | x :: l => Ok (max_from x l)
  end.

(** ** The third-party libraries *)

(** numpy: the array type and [np.array] on a nested list. *)
Record Numpy : Type := {
  ndarray : Type;
  array : list (list pyval) -> res ndarray
}.

(** A fitted scikit-learn classifier: the two methods the service calls. *)
Record Classifier (np : Numpy) : Type := {
  predict : ndarray np -> res (list npscalar);
  predict_proba : ndarray np -> res (list (list npscalar))
}.
Arguments predict {np} _ _.
Arguments predict_proba {np} _ _.

(** A loaded model as the Python object it is: a method is handed the
    state of the object and returns, with its answer, the state it leaves,
    also when it raises. *)
Record Estimator (np : Numpy) : Type := {
  handle : Type;
  do_predict : ndarray np -> handle -> res (list npscalar) * handle;
  do_predict_proba :
    ndarray np -> handle -> res (list (list npscalar)) * handle
}.
Arguments handle {np} _.
Arguments do_predict {np} _ _ _.
Arguments do_predict_proba {np} _ _ _.

(** Flask: the request object and [request.get_json()]. *)
Record Flask : Type := {
  request : Type;
  get_json : request -> res pyval
}.

(** What a module-level name can be bound to. *)
Inductive pyobj (np : Numpy) : Type :=
  | OModule (name : string)
  | OBuiltin (name : string)
  | OFunction (name : string)
  | OModel (m : Classifier np).
Arguments OModule {np} name.
Arguments OBuiltin {np} name.
Arguments OFunction {np} name.
Arguments OModel {np} m.

#[global] Instance byte_eq_dec : EqDecision Byte.byte := Byte.byte_eq_dec.

(** The files of the machine, by path as the process sees them: regular
    files the process may read.  Directories and permissions are left out,
    so the only way [open] fails here is the absent file. *)
Record world : Type := {
  files : gmap string (list Byte.byte)
}.

(** [open(path, 'rb')] and reading the whole file. *)
Definition py_open (w : world) (path : string) : res (list Byte.byte) :=
  match files w !! path with
  | Some content => Ok content
  | None => Raise (FileNotFoundError path)
  end.

(** The names every module sees without importing them (those this
    program uses). *)
Definition builtins {np : Numpy} : gmap string (pyobj np) :=
  list_to_map
    ((fun n => (n, OBuiltin n)) <$>
       ["open"; "int"; "float"; "max"; "round"; "print"; "str"; "Exception"]).

(** Looking a name up: the module's globals, then the built-ins. *)
Definition load_name {np : Numpy} (g : gmap string (pyobj np)) (name : string)
  : res (pyobj np) :=
  match g !! name with
  | Some o => Ok o
  | None =>
      match builtins !! name with
      | Some o => Ok o
      | None => Raise (NameError name)
      end
  end.

(** [o.load(f)]: defined when [o] is the [pickle] module. *)
Definition call_load {np : Numpy}
    (loads : list Byte.byte -> res (Classifier np))
    (o : pyobj np) (content : list Byte.byte) : res (pyobj np) :=
  match o with
  | OModule name =>
      if decide (name = "pickle") then m ← loads content; mret (OModel m)
      else Raise (AttributeError "module has no attribute 'load'")
  | _ => Raise (AttributeError "object has no attribute 'load'")
  end.

(** scikit-learn's [RandomForestClassifier().fit(X, y)] on a table of
    integers.  The classifier is built without [random_state], so the fit
    also depends on the random draws of the run, [seed]. *)
Record Sklearn (np : Numpy) : Type := {
  fit : N -> list (string * list Z) -> list Z -> res (Classifier np)
}.
Arguments fit {np} _ _ _ _.

(** pickle: [dump] and [load] on the bytes of a file. *)
Record Pickle (np : Numpy) : Type := {
  dumps : Classifier np -> list Byte.byte;
  loads : list Byte.byte -> res (Classifier np)
}.
Arguments dumps {np} _ _.
Arguments loads {np} _ _.

(** ** server/ml/train_churn_model.py *)

Module TrainChurnModel.

(** A pandas [DataFrame] of integers: its named columns, in order. *)
Definition DataFrame : Type := list (string * list Z).

Definition columns (df : DataFrame) : list string := df.*1.

(** [df.drop(label, axis=1)] *)
Definition drop (label : string) (df : DataFrame) : res DataFrame :=
  if decide (label ∈ columns df)
  then Ok (filter (fun c => c.1 ≠ label) df)
  else Raise (KeyError label).

(** [df[label]] *)
Definition getitem (df : DataFrame) (label : string) : res (list Z) :=
  match list_find (fun c => c.1 = label) df with
  | Some (_, c) => Ok c.2
  | None => Raise (KeyError label)
  end.

Definition data : DataFrame :=
  [ ("avg_order_value", [50; 20; 300; 10; 100; 85]);
    ("purchase_frequency", [10; 2; 1; 0; 4; 5]);
    ("days_since_last_purchase", [5; 60; 90; 120; 30; 15]);
    ("total_spent", [500; 40; 300; 10; 400; 420]);
    ("churned", [0; 1; 1; 1; 0; 0]) ].

Definition X : res DataFrame := drop "churned" data.
Definition y : res (list Z) := getitem data "churned".

Definition artifact_path : string := "server/ml/churn_model.pkl".

(** The script: fit on [X], [y] and write the artifact, replacing what
    the path held. *)
Definition main {np : Numpy} (sk : Sklearn np) (pk : Pickle np)
    (seed : N) (w : world) : res world :=
  X ← X;
  y ← y;
  model ← fit sk seed X y;
  mret {| files := <[artifact_path := dumps pk model]> (files w) |}.

End TrainChurnModel.

(** ** server/ml/predict.py *)

Module Predict.

Definition artifact_path : string := "server/ml/churn_model.pkl".

(** Running the module's top-level statements: the names it binds, or
    the exception that ends the import.  Line 1 of the file is the comment
    [#(import pickle]; it binds nothing. *)
Definition module_init {np : Numpy}
    (loads : list Byte.byte -> res (Classifier np)) (w : world)
  : res (gmap string (pyobj np)) :=
  let g : gmap string (pyobj np) := ∅ in
  let g := <["np" := OModule "numpy"]> g in
  f ← py_open w artifact_path;
  pickle ← load_name g "pickle";
  model ← call_load loads pickle f;
  let g := <["model" := model]> g in
  let g := <["predict_churn" := OFunction "predict_churn"]> g in
  mret g.

(** The nested list handed to [np.array]. *)
Definition feature_rows (customer_data : pyval) : res (list (list pyval)) :=
  a ← py_getitem customer_data "avg_order_value";
  b ← py_getitem customer_data "purchase_frequency";
  c ← py_getitem customer_data "days_since_last_purchase";
  d ← py_getitem customer_data "total_spent";
  mret [[a; b; c; d]].

(** [model] is the module-level name the function reads. *)
Definition predict_churn {np : Numpy} (model : Classifier np)
    (customer_data : pyval) : res (gmap string pyval) :=
  rows ← feature_rows customer_data;
  features ← array np rows;
  prediction ← predict model features;
  probability ← predict_proba model features;
  label ← np_first prediction;
  row ← np_first probability;
  best ← py_max row;
  mret ({[ "churn_risk" := PInt (py_int label);
           "confidence" := PFloat (py_round2 (py_float best)) ]}
        : gmap string pyval).

(** The [__main__] block. *)
Definition sample : pyval :=
  PDict {[ "avg_order_value" := PInt 30;
           "purchase_frequency" := PInt 3;
           "days_since_last_purchase" := PInt 45;
           "total_spent" := PInt 150 ]}.

Definition main {np : Numpy} (model : Classifier np)
  : res (gmap string pyval) :=
  predict_churn model sample.

(** The same function with [model] as the mutable object it is: [s] is the
    state of the object when the call starts, and the second component the
    state in which the call leaves it. *)
Definition predict_churn_st {np : Numpy} (m : Estimator np)
    (customer_data : pyval) (s : handle m)
  : res (gmap string pyval) * handle m :=
  match rows ← feature_rows customer_data; array np rows with
  | Raise e => (Raise e, s)
  | Ok features =>
      let (prediction, s1) := do_predict m features s in
      match prediction with
      | Raise e => (Raise e, s1)
      | Ok prediction =>
          let (probability, s2) := do_predict_proba m features s1 in
          (probability ← probability;
           label ← np_first prediction;
           row ← np_first probability;
           best ← py_max row;
           mret ({[ "churn_risk" := PInt (py_int label);
                    "confidence" := PFloat (py_round2 (py_float best)) ]}
                 : gmap string pyval),
           s2)
      end
  end.

(** The calls of a process, one after the other, on the one object. *)
Fixpoint run {np : Numpy} (m : Estimator np) (inputs : list pyval)
    (s : handle m) : list (res (gmap string pyval)) * handle m :=
  match inputs with
  | [] => ([], s)
  | d :: rest =>
      let (r, s1) := predict_churn_st m d s in
      let (rs, s2) := run m rest s1 in
      (r :: rs, s2)
  end.

End Predict.

(** ** server/app.py *)

Module App.

Record response : Type := {
  body : pyval;
  status : Z
}.

(** [jsonify(o)]: a response with [o] as JSON body and status 200. *)
Definition jsonify (o : pyval) : response := {| body := o; status := 200 |}.

(** [return resp, code] *)
Definition with_status (resp : response) (code : Z) : response :=
  {| body := body resp; status := code |}.

(** The route [POST /predict-churn]. *)
Definition predict {np : Numpy} (fl : Flask) (model : Classifier np)
    (req : request fl) : response :=
  match
    data ← get_json fl req;
    result ← Predict.predict_churn model data;
    mret (jsonify (PDict result))
  with
  | Ok resp => resp
  | Raise e =>
      with_status (jsonify (PDict {[ "error" := PStr (py_str e) ]})) 400
  end.

(** Importing the module: [from ml.predict import predict_churn] runs
    [ml.predict] first. *)
Definition module_init {np : Numpy}
    (loads : list Byte.byte -> res (Classifier np)) (w : world)
  : res (gmap string (pyobj np)) :=
  let g : gmap string (pyobj np) := ∅ in
  let g := <["Flask" := OModule "flask.Flask"]> g in
  let g := <["request" := OModule "flask.request"]> g in
  let g := <["jsonify" := OModule "flask.jsonify"]> g in
  m ← Predict.module_init loads w;
  predict_churn ← load_name m "predict_churn";
  let g := <["predict_churn" := predict_churn]> g in
  let g := <["app" := OModule "flask.app"]> g in
  let g := <["predict" := OFunction "predict"]> g in
  mret g.

End App.

(** ** Notions of the specification *)

(** The four fields of a Feature Record, in the order the function reads
    them. *)
Definition required_fields : list string :=
  ["avg_order_value"; "purchase_frequency"; "days_since_last_purchase";
   "total_spent"].

Ltac in_fields := unfold required_fields; rewrite !elem_of_cons; tauto.

(** Parsing followed by prediction: the two steps of the route's [try]
    block that can raise. *)
Definition handled {np : Numpy} (fl : Flask) (model : Classifier np)
    (req : request fl) : res (gmap string pyval) :=
  data ← get_json fl req; Predict.predict_churn model data.

(** ** What a fitted classifier promises *)

(** A feature the classifier can take: a number within the range of the
    32-bit floats the forest converts its input to. *)
Definition feature_value (v : pyval) : Prop :=
  match v with
  | PInt z => Z.abs z < 2 ^ 127
  | PFloat x => (Qabs x < inject_Z (2 ^ 127))%Q
  | _ => False
  end.

Definition Qsum (l : list Q) : Q := foldr Qplus 0%Q l.

(** How far the exact sum of a probability row may lie from 1.  A forest
    averages the class frequencies of its trees in binary64, so the entries
    are rounded values: 0.31 and 0.69 as binary64 values sum to
    [1 - 2^-54]. *)
Definition proba_tolerance : Q := 1 # 1000000.

(** A row of [predict_proba]: one float between 0 and 1 per class, summing
    to 1 up to rounding. *)
Definition distribution (n_classes : nat) (row : list npscalar) : Prop :=
  length row = n_classes
  ∧ Forall (fun p => ∃ x, p = NpFloat x ∧ (0 <= x <= 1)%Q) row
  ∧ (1 - proba_tolerance <= Qsum (np_value <$> row)
     <= 1 + proba_tolerance)%Q.

(** The vote split [c] of a hundred trees, as the row the forest returns
    for it, sums to 1 up to rounding. *)
Definition split_ok (c : Z) : bool :=
  let p0 := RN53 (inject_Z (100 - c) / 100) in
  let p1 := RN53 (inject_Z c / 100) in
  Qle_bool (1 - proba_tolerance) (p0 + (p1 + 0))
  && Qle_bool (p0 + (p1 + 0)) (1 + proba_tolerance).

(** scikit-learn's contract for a classifier fitted on [n_features] columns
    and the labels [y]: a row of [n_features] numbers gets one label and one
    probability row; a label is one of the labels seen in [y]; a probability
    row is a distribution over the distinct labels of [y]. *)
Record fitted {np : Numpy} (m : Classifier np) (n_features : nat)
    (y : list Z) : Prop := {
  fitted_accepts : ∀ row,
    length row = n_features → Forall feature_value row →
    ∃ X l ps,
      array np [row] = Ok X ∧ predict m X = Ok [l]
      ∧ predict_proba m X = Ok [ps];
  fitted_labels : ∀ X ls,
    predict m X = Ok ls → Forall (fun l => ∃ z, l = NpInt z ∧ z ∈ y) ls;
  fitted_proba : ∀ X P,
    predict_proba m X = Ok P →
    Forall (distribution (length (remove_dups y))) P
}.

(** A model the Producer's script can have written: fitted on its [X] and
    [y]. *)
Definition fitted_on_data {np : Numpy} (m : Classifier np) : Prop :=
  ∃ Xt yt,
    TrainChurnModel.X = Ok Xt ∧ TrainChurnModel.y = Ok yt
    ∧ fitted m (length (TrainChurnModel.columns Xt)) yt.

(** The model answers with integer labels among [allowed] only. *)
Definition labels_in {np : Numpy} (m : Classifier np) (allowed : list Z)
  : Prop :=
  ∀ X ls, predict m X = Ok ls →
          Forall (fun l => ∃ z, l = NpInt z ∧ z ∈ allowed) ls.

(** The model answers with floats between 0 and 1 only. *)
Definition probabilities_in_unit {np : Numpy} (m : Classifier np) : Prop :=
  ∀ X P, predict_proba m X = Ok P →
         Forall (Forall (fun p => ∃ x, p = NpFloat x ∧ (0 <= x <= 1)%Q)) P.

(** A fixed model: neither method leaves the object in another state than
    the one it found. *)
Definition fixed_handle {np : Numpy} (m : Estimator np) : Prop :=
  ∀ X s, (do_predict m X s).2 = s ∧ (do_predict_proba m X s).2 = s.


(** ** A small instance of the libraries

    Three one-feature rules voting, on arrays of rationals, give the
    statements below concrete inputs to run on.  The hundred trees further
    down answer with binary64 values, as a fitted forest does, and meet the
    contract above. *)

Module Stub.

Fixpoint traverse {A B : Type} (f : A -> res B) (l : list A) : res (list B) :=
  match l with
  | [] => Ok []
  | x :: l' => y ← f x; ys ← traverse f l'; mret (y :: ys)
  end.

Definition number (v : pyval) : res Q :=
  match v with
  | PInt z => Ok (inject_Z z)
  | PFloat x => Ok x
  | _ => Raise (ValueError "could not convert to float")
  end.

Definition numpy : Numpy := {|
  ndarray := list (list Q);
  array := traverse (traverse number)
|}.

Definition Qlt_bool (a b : Q) : bool := negb (Qle_bool b a).

(** How many of the three rules vote for churn. *)
Definition votes (row : list Q) : res Z :=
  match row with
  | [_; freq; days; total] =>
      Ok (Z.b2z (Qlt_bool 45 days) + Z.b2z (Qlt_bool freq 3)
          + Z.b2z (Qlt_bool total 200))
  | _ => Raise (ValueError "X has a wrong number of features")
  end.

Definition forest_predict (X : list (list Q)) : res (list npscalar) :=
  traverse (fun row => v ← votes row;
                       mret (NpInt (if 2 <=? v then 1 else 0))) X.

Definition forest_predict_proba (X : list (list Q))
  : res (list (list npscalar)) :=
  traverse (fun row => v ← votes row;
                       mret [NpFloat (Qmake (3 - v) 3);
                             NpFloat (Qmake v 3)]) X.

Definition forest : Classifier numpy :=
  Build_Classifier numpy forest_predict forest_predict_proba.

(** A pickle that knows one byte string. *)
Definition artifact : list Byte.byte := [Byte.x80; Byte.x04; Byte.x2e].

Definition pickle : Pickle numpy := {|
  dumps _ := artifact;
  loads content :=
    if decide (content = artifact) then Ok forest
    else Raise (LibraryError "UnpicklingError" "invalid load key")
|}.

Definition sklearn : Sklearn numpy := {|
  fit _ X _ :=
    if decide (length X = 4%nat) then Ok forest
    else Raise (ValueError "unexpected number of columns")
|}.

(** A Flask whose requests are the already parsed body, or nothing that
    parses. *)
Definition flask : Flask := {|
  request := option pyval;
  get_json r :=
    match r with
    | Some v => Ok v
    | None =>
        Raise (LibraryError "BadRequest"
                 "400 Bad Request: Failed to decode JSON object")
    end
|}.

Definition with_artifact : world :=
  {| files := {[ Predict.artifact_path := artifact ]} |}.

Definition no_artifact : world := {| files := ∅ |}.

(** A hundred one-rule trees on days_since_last_purchase: tree [i], for
    [i] from 0 to 99, votes for churn when the value exceeds [30 + i/4].
    [churn_votes] counts the votes for churn; the forest answers with the
    majority and with the binary64 means of the votes. *)
Definition churn_votes (row : list Q) : res Z :=
  match row with
  | [_; _; days; _] => Ok (Z.max 0 (Z.min 100 (Qceiling ((days - 30) * 4))))
  | _ => Raise (ValueError "X has a wrong number of features")
  end.

Definition hundred_predict (X : list (list Q)) : res (list npscalar) :=
  traverse (fun row => c ← churn_votes row;
                       mret (NpInt (if 50 <? c then 1 else 0))) X.

Definition hundred_predict_proba (X : list (list Q))
  : res (list (list npscalar)) :=
  traverse (fun row => c ← churn_votes row;
                       mret [NpFloat (RN53 (inject_Z (100 - c) / 100));
                             NpFloat (RN53 (inject_Z c / 100))]) X.

Definition hundred : Classifier numpy :=
  Build_Classifier numpy hundred_predict hundred_predict_proba.


(** An object that counts the calls of [predict] and answers with the
    parity of the count. *)
Definition counting : Estimator numpy :=
  Build_Estimator numpy Z
    (fun _ n => (Ok [NpInt (n mod 2)], n + 1))
    (fun _ n => (Ok [[NpFloat 1; NpFloat 0]], n)).

(** A loaded object that is no classifier of churn: label 3, and 7 where
    a probability is due. *)
Definition off_contract : Classifier numpy :=
  Build_Classifier numpy (fun _ => Ok [NpInt 3]) (fun _ => Ok [[NpFloat 7]]).

End Stub.

(** ** Classifiers that answer with empty arrays

    No fitted forest does; they exercise the subscripts and the [max] of
    [predict_churn]. *)

Module Mute.

Definition no_label : Classifier Stub.numpy :=
  Build_Classifier Stub.numpy
    (fun _ => Ok []) (fun _ => Ok [[NpFloat 1; NpFloat 0]]).

Definition no_row : Classifier Stub.numpy :=
  Build_Classifier Stub.numpy (fun _ => Ok [NpInt 0]) (fun _ => Ok []).

Definition empty_row : Classifier Stub.numpy :=
  Build_Classifier Stub.numpy (fun _ => Ok [NpInt 0]) (fun _ => Ok [[]]).

End Mute.

(** * Properties *)

(** ** Arithmetic *)

Example RN53_tenth :
  RN53 (1 # 10) = (3602879701896397 # 36028797018963968)%Q.
Proof. vm_compute. reflexivity. Qed.

Example RN53_half : RN53 (1 # 2) = (1 # 2)%Q.
Proof. vm_compute. reflexivity. Qed.

Example py_round2_ties_to_even :
  py_round2 (2 # 3) = RN53 (67 # 100) ∧ py_round2 (1 # 8) = RN53 (12 # 100).
Proof. split; vm_compute; reflexivity. Qed.

Lemma round_half_even_between (q : Q) (lo hi : Z) :
  (inject_Z lo <= q)%Q → (q <= inject_Z hi)%Q →
  lo ≤ round_half_even q ≤ hi.
Proof.
  destruct q as [n d]. unfold Qle, round_half_even. simpl.
  rewrite !Z.mul_1_r. intros Hlo Hhi.
  pose proof (Z.div_mod n (Z.pos d) ltac:(lia)) as Hdiv.
  pose proof (Z.mod_pos_bound n (Z.pos d) ltac:(lia)) as Hmod.
  set (f := n / Z.pos d) in *. set (r := n mod Z.pos d) in *.
  assert (lo ≤ f) by nia.
  assert (f ≤ hi) by nia.
  assert (0 < r → f + 1 ≤ hi) by nia.
  repeat case_match; lia.
Qed.

(** [round_half_even] picks an integer within 1/2 of its argument, and the
    even one when two are. *)
Lemma round_half_even_spec (n : Z) (d : positive) :
  let k := round_half_even (n # d) in
  (2 * k - 1) * Z.pos d ≤ 2 * n ≤ (2 * k + 1) * Z.pos d
  ∧ (2 * n = (2 * k - 1) * Z.pos d ∨ 2 * n = (2 * k + 1) * Z.pos d →
     Z.even k = true).
Proof.
  unfold round_half_even. simpl.
  pose proof (Z.div_mod n (Z.pos d) ltac:(lia)) as Hdiv.
  pose proof (Z.mod_pos_bound n (Z.pos d) ltac:(lia)) as Hmod.
  set (f := n / Z.pos d) in *. set (r := n mod Z.pos d) in *.
  destruct (2 * r <? Z.pos d) eqn:Hlt.
  { apply Z.ltb_lt in Hlt. split; [nia |]. intros [? | ?]; nia. }
  apply Z.ltb_ge in Hlt.
  destruct (Z.pos d <? 2 * r) eqn:Hgt.
  { apply Z.ltb_lt in Hgt. split; [nia |]. intros [? | ?]; nia. }
  apply Z.ltb_ge in Hgt.
  destruct (Z.even f) eqn:Heven.
  - split; [nia | done].
  - split; [nia |]. intros _.
    rewrite Z.even_add, Heven. reflexivity.
Qed.

Lemma round_half_even_near (q : Q) :
  (inject_Z (round_half_even q) - (1 # 2) <= q)%Q
  ∧ (q <= inject_Z (round_half_even q) + (1 # 2))%Q.
Proof.
  destruct q as [n d].
  destruct (round_half_even_spec n d) as [[Hlo Hhi] _].
  set (k := round_half_even (n # d)) in *.
  unfold Qle, Qminus, Qplus, Qopp, inject_Z. simpl.
  split; nia.
Qed.

Lemma round_half_even_mono (q1 q2 : Q) :
  (q1 <= q2)%Q → round_half_even q1 ≤ round_half_even q2.
Proof.
  destruct q1 as [n1 d1], q2 as [n2 d2]. unfold Qle. simpl. intros Hle.
  destruct (round_half_even_spec n1 d1) as [[Hlo1 Hhi1] He1].
  destruct (round_half_even_spec n2 d2) as [[Hlo2 Hhi2] He2].
  set (k1 := round_half_even (n1 # d1)) in *.
  set (k2 := round_half_even (n2 # d2)) in *.
  destruct (Z_le_gt_dec k1 k2) as [? | Hgt]; [done |]. exfalso.
  assert (H1 : (2 * k1 - 1) * (Z.pos d1 * Z.pos d2) ≤ 2 * (n1 * Z.pos d2))
    by nia.
  assert (H2 : 2 * (n2 * Z.pos d1) ≤ (2 * k2 + 1) * (Z.pos d1 * Z.pos d2))
    by nia.
  assert (Hk : k1 = k2 + 1) by nia.
  assert (Hd : 0 < Z.pos d1 * Z.pos d2) by lia.
  assert (E1 : 2 * n1 = (2 * k1 - 1) * Z.pos d1) by nia.
  assert (E2 : 2 * n2 = (2 * k2 + 1) * Z.pos d2) by nia.
  specialize (He1 (or_introl E1)). specialize (He2 (or_intror E2)).
  rewrite Hk, Z.even_add, He2 in He1. done.
Qed.

(** Checked on the 101 decimals 0.00, 0.01, ..., 1.00. *)
Lemma percent_ok_all :
  forallb percent_ok (Z.of_nat <$> seq 0 101) = true.
Proof. vm_compute. reflexivity. Qed.

Lemma RN53_percent (k : Z) :
  0 ≤ k ≤ 100 →
  (0 <= RN53 (inject_Z k / 100) <= 1)%Q
  ∧ (50 ≤ k → (1 # 2 <= RN53 (inject_Z k / 100))%Q).
Proof.
  intros Hk.
  pose proof percent_ok_all as Hall.
  rewrite forallb_forall in Hall.
  assert (Hin : In k (Z.of_nat <$> seq 0 101)).
  { apply list_elem_of_In, list_elem_of_fmap. exists (Z.to_nat k).
    split; [lia |]. apply list_elem_of_In, in_seq. lia. }
  specialize (Hall k Hin). unfold percent_ok in Hall.
  apply andb_prop in Hall as [Hall H50]. apply andb_prop in Hall as [H0 H1].
  apply Qle_bool_iff in H0, H1.
  split; [by split |].
  intros Hge. apply orb_prop in H50 as [Hlt | Hhalf].
  - apply Z.ltb_lt in Hlt. lia.
  - by apply Qle_bool_iff.
Qed.

Lemma py_round2_unit (x : Q) :
  (0 <= x <= 1)%Q →
  ∃ k, 0 ≤ k ≤ 100 ∧ py_round2 x = RN53 (inject_Z k / 100)
       ∧ (0 <= py_round2 x <= 1)%Q.
Proof.
  intros [H0 H1]. exists (round_half_even (x * 100)).
  assert (Hk : 0 ≤ round_half_even (x * 100) ≤ 100).
  { apply round_half_even_between;
      [change (inject_Z 0) with 0%Q | change (inject_Z 100) with 100%Q]; lra. }
  split; [done |]. split; [done |].
  by apply RN53_percent.
Qed.

Lemma py_round2_upper_half (x : Q) :
  (99 # 200 < x)%Q → (x <= 1)%Q → (1 # 2 <= py_round2 x <= 1)%Q.
Proof.
  intros Hlo Hhi.
  destruct (round_half_even_near (x * 100)) as [_ Hnear].
  assert (Hk : 50 ≤ round_half_even (x * 100) ≤ 100).
  { assert (Hb : 0 ≤ round_half_even (x * 100) ≤ 100).
    { apply round_half_even_between;
        [change (inject_Z 0) with 0%Q | change (inject_Z 100) with 100%Q];
        lra. }
    assert (H49 : (inject_Z 49 < inject_Z (round_half_even (x * 100)))%Q)
      by (change (inject_Z 49) with 49%Q; lra).
    rewrite <- Zlt_Qlt in H49. lia. }
  unfold py_round2.
  destruct (RN53_percent (round_half_even (x * 100))) as [[_ ?] Hhalf]; [lia |].
  split; [apply Hhalf; lia | done].
Qed.

(** ** [max] and probability rows *)

Lemma max_from_spec (l : list npscalar) (best : npscalar) :
  max_from best l ∈ best :: l
  ∧ (np_value best <= np_value (max_from best l))%Q
  ∧ Forall (fun p => (np_value p <= np_value (max_from best l))%Q) l.
Proof.
  revert best. induction l as [| x l IH]; intros best; simpl.
  - split; [apply list_elem_of_here |]. split; [lra | constructor].
  - destruct (IH (if Qle_bool (np_value x) (np_value best) then best else x))
      as (Hin & Hle & Hall).
    destruct (Qle_bool (np_value x) (np_value best)) eqn:Hcmp.
    + apply Qle_bool_iff in Hcmp.
      split; [| split; [done | constructor; [lra | done]]].
      apply elem_of_cons in Hin as [Heq | Hin];
        [rewrite Heq; apply list_elem_of_here
        | by do 2 apply list_elem_of_further].
    + assert (np_value best < np_value x)%Q.
      { apply Qnot_le_lt. intros Habs. apply Qle_bool_iff in Habs. congruence. }
      split; [by apply list_elem_of_further |]. split; [lra |].
      constructor; [lra | done].
Qed.

Lemma py_max_spec (row : list npscalar) (best : npscalar) :
  py_max row = Ok best →
  best ∈ row ∧ Forall (fun p => (np_value p <= np_value best)%Q) row.
Proof.
  destruct row as [| x l]; simpl; [done |].
  intros [= <-]. destruct (max_from_spec l x) as (Hin & Hle & Hall).
  split; [done |]. by constructor.
Qed.

(** An entry of a probability row is a float between 0 and 1. *)
Lemma distribution_elem (n : nat) (row : list npscalar) (p : npscalar) :
  distribution n row → p ∈ row →
  ∃ x, p = NpFloat x ∧ (0 <= x <= 1)%Q.
Proof.
  intros (_ & Hfl & _) Hin. rewrite Forall_forall in Hfl. by apply Hfl.
Qed.

(** The greatest of two probabilities that sum to 1 up to rounding lies
    above 0.495. *)
Lemma distribution_two_max (row : list npscalar) (best : npscalar) :
  distribution 2 row →
  Forall (fun p => (np_value p <= np_value best)%Q) row →
  (99 # 200 < np_value best)%Q.
Proof.
  intros (Hlen & _ & Hsum & _) Hmax.
  destruct row as [| p [| q [| ? ?]]]; try done.
  simpl in Hsum. unfold proba_tolerance in Hsum.
  apply Forall_cons in Hmax as [Hp Hmax].
  apply Forall_cons in Hmax as [Hq _]. lra.
Qed.

(** ** The prediction function *)

Lemma feature_rows_present (d : gmap string pyval) (a b c e : pyval) :
  d !! "avg_order_value" = Some a →
  d !! "purchase_frequency" = Some b →
  d !! "days_since_last_purchase" = Some c →
  d !! "total_spent" = Some e →
  Predict.feature_rows (PDict d) = Ok [[a; b; c; e]].
Proof.
  intros Ha Hb Hc He. unfold Predict.feature_rows. simpl.
  by rewrite Ha, Hb, Hc, He.
Qed.

Section Prediction.

Context {np : Numpy} (model : Classifier np).

(** What [predict_churn] returns once the libraries have answered. *)
Lemma predict_churn_unfold (customer_data : pyval)
    (rows : list (list pyval)) (X : ndarray np)
    (ls : list npscalar) (P : list (list npscalar)) :
  Predict.feature_rows customer_data = Ok rows →
  array np rows = Ok X →
  predict model X = Ok ls →
  predict_proba model X = Ok P →
  Predict.predict_churn model customer_data =
    (label ← np_first ls;
     row ← np_first P;
     best ← py_max row;
     mret ({[ "churn_risk" := PInt (py_int label);
              "confidence" := PFloat (py_round2 (py_float best)) ]}
           : gmap string pyval)).
Proof.
  intros Hrows HX Hls HP. unfold Predict.predict_churn.
  rewrite Hrows. simpl. rewrite HX. simpl. rewrite Hls. simpl.
  by rewrite HP.
Qed.

Lemma predict_churn_first_row (customer_data : pyval)
    (rows : list (list pyval)) (X : ndarray np)
    (l : npscalar) (ls : list npscalar)
    (p : npscalar) (ps : list npscalar) (P : list (list npscalar)) :
  Predict.feature_rows customer_data = Ok rows →
  array np rows = Ok X →
  predict model X = Ok (l :: ls) →
  predict_proba model X = Ok ((p :: ps) :: P) →
  Predict.predict_churn model customer_data =
    Ok {[ "churn_risk" := PInt (py_int l);
          "confidence" := PFloat (py_round2 (py_float (max_from p ps))) ]}.
Proof.
  intros Hrows HX Hl HP.
  by rewrite (predict_churn_unfold _ _ _ _ _ Hrows HX Hl HP).
Qed.

(** C1.  For a mapping with the four fields, when the model answers the
    single-row vector with the labels [l :: ls] and the probability rows
    [(p :: ps) :: P], [predict_churn] returns the record whose
    [churn_risk] is [int] of the first label and whose [confidence] is
    [round(float(m), 2)] for [m] the greatest entry of the first
    probability row. *)
Theorem predict_churn_record (d : gmap string pyval) (a b c e : pyval)
    (X : ndarray np) (l : npscalar) (ls : list npscalar)
    (p : npscalar) (ps : list npscalar) (P : list (list npscalar)) :
  d !! "avg_order_value" = Some a →
  d !! "purchase_frequency" = Some b →
  d !! "days_since_last_purchase" = Some c →
  d !! "total_spent" = Some e →
  array np [[a; b; c; e]] = Ok X →
  predict model X = Ok (l :: ls) →
  predict_proba model X = Ok ((p :: ps) :: P) →
  ∃ m,
    Predict.predict_churn model (PDict d) =
      Ok {[ "churn_risk" := PInt (py_int l);
            "confidence" := PFloat (py_round2 (py_float m)) ]}
    ∧ m ∈ p :: ps
    ∧ Forall (fun q => (np_value q <= np_value m)%Q) (p :: ps).
Proof.
  intros Ha Hb Hc He HX Hl HP. exists (max_from p ps).
  split.
  - eapply predict_churn_first_row; [| exact HX | exact Hl | exact HP].
    by apply feature_rows_present.
  - by apply py_max_spec.
Qed.

(** C2.  For a mapping with the four fields, the single row handed to
    [np.array] holds the values of avg_order_value, purchase_frequency,
    days_since_last_purchase and total_spent in this order, which is the
    order of the columns of the Producer's training table [X]. *)
Theorem feature_order_is_training_order
    (d : gmap string pyval) (a b c e : pyval) :
  d !! "avg_order_value" = Some a →
  d !! "purchase_frequency" = Some b →
  d !! "days_since_last_purchase" = Some c →
  d !! "total_spent" = Some e →
  Predict.feature_rows (PDict d) = Ok [[a; b; c; e]]
  ∧ Predict.predict_churn model (PDict d) =
      (features ← array np [[a; b; c; e]];
       prediction ← predict model features;
       probability ← predict_proba model features;
       label ← np_first prediction;
       row ← np_first probability;
       best ← py_max row;
       mret ({[ "churn_risk" := PInt (py_int label);
                "confidence" := PFloat (py_round2 (py_float best)) ]}
             : gmap string pyval))
  ∧ ∃ Xt,
      TrainChurnModel.X = Ok Xt
      ∧ TrainChurnModel.columns Xt =
          ["avg_order_value"; "purchase_frequency";
           "days_since_last_purchase"; "total_spent"]
      ∧ (d !!.) <$> TrainChurnModel.columns Xt = Some <$> [a; b; c; e].
Proof.
  intros Ha Hb Hc He.
  pose proof (feature_rows_present d a b c e Ha Hb Hc He) as Hrows.
  split; [exact Hrows |]. split.
  - unfold Predict.predict_churn. by rewrite Hrows.
  - eexists. split; [vm_compute; reflexivity |].
    split; [reflexivity |]. simpl. by rewrite Ha, Hb, Hc, He.
Qed.

End Prediction.

Lemma predict_churn_record_witness :
  ∃ m,
    Predict.predict_churn Stub.forest Predict.sample =
      Ok {[ "churn_risk" := PInt (py_int (NpInt 0));
            "confidence" := PFloat (py_round2 (py_float m)) ]}
    ∧ m ∈ [NpFloat (2 # 3); NpFloat (1 # 3)]
    ∧ Forall (fun q => (np_value q <= np_value m)%Q)
        [NpFloat (2 # 3); NpFloat (1 # 3)].
Proof.
  apply (predict_churn_record Stub.forest _
           (PInt 30) (PInt 3) (PInt 45) (PInt 150)
           [[30; 3; 45; 150]%Q] (NpInt 0) [] (NpFloat (2 # 3))
           [NpFloat (1 # 3)] []);
    vm_compute; reflexivity.
Defined.

Lemma feature_order_is_training_order_witness :
  Predict.feature_rows Predict.sample =
    Ok [[PInt 30; PInt 3; PInt 45; PInt 150]].
Proof.
  refine (proj1 (feature_order_is_training_order Stub.forest _
                   (PInt 30) (PInt 3) (PInt 45) (PInt 150) _ _ _ _));
    vm_compute; reflexivity.
Defined.

(** ** Results of a sequence of calls *)

Lemma bind_Ok {A B : Type} (c : res A) (k : A → res B) (b : B) :
  (x ← c; k x) = Ok b → ∃ a, c = Ok a ∧ k a = Ok b.
Proof. destruct c as [a | e]; simpl; [eauto | done]. Qed.

Lemma bind_Raise {A B : Type} (c : res A) (k : A → res B) (e : exn) :
  c = Raise e → (x ← c; k x) = Raise e.
Proof. by intros ->. Qed.

(** A successful call went through every step. *)
Lemma predict_churn_Ok {np : Numpy} (model : Classifier np)
    (customer_data : pyval) (result : gmap string pyval) :
  Predict.predict_churn model customer_data = Ok result →
  ∃ rows X ls P label row best,
    Predict.feature_rows customer_data = Ok rows
    ∧ array np rows = Ok X
    ∧ predict model X = Ok ls
    ∧ predict_proba model X = Ok P
    ∧ label ∈ ls ∧ row ∈ P ∧ py_max row = Ok best
    ∧ result = {[ "churn_risk" := PInt (py_int label);
                  "confidence" := PFloat (py_round2 (py_float best)) ]}.
Proof.
  unfold Predict.predict_churn. intros H.
  apply bind_Ok in H as (rows & Hrows & H).
  apply bind_Ok in H as (X & HX & H).
  apply bind_Ok in H as (ls & Hls & H).
  apply bind_Ok in H as (P & HP & H).
  apply bind_Ok in H as (label & Hlabel & H).
  apply bind_Ok in H as (row & Hrow & H).
  apply bind_Ok in H as (best & Hbest & H).
  injection H as <-.
  exists rows, X, ls, P, label, row, best.
  repeat split; try done.
  - unfold np_first in Hlabel. destruct (ls !! 0%nat) eqn:E; [| done].
    injection Hlabel as ->. by eapply list_elem_of_lookup_2.
  - unfold np_first in Hrow. destruct (P !! 0%nat) eqn:E; [| done].
    injection Hrow as ->. by eapply list_elem_of_lookup_2.
Qed.

(** A mapping that lacks a field stops the function at the first field it
    lacks, with a [KeyError]. *)
Lemma feature_rows_missing (d : gmap string pyval) (k : string) :
  k ∈ required_fields → d !! k = None →
  ∃ k', k' ∈ required_fields ∧ d !! k' = None
        ∧ Predict.feature_rows (PDict d) = Raise (KeyError k').
Proof.
  intros Hk Hnone. unfold Predict.feature_rows, required_fields in *. simpl.
  destruct (d !! "avg_order_value") eqn:E1; simpl;
    [| exists "avg_order_value"; repeat split; [in_fields | done..]].
  destruct (d !! "purchase_frequency") eqn:E2; simpl;
    [| exists "purchase_frequency"; repeat split; [in_fields | done..]].
  destruct (d !! "days_since_last_purchase") eqn:E3; simpl;
    [| exists "days_since_last_purchase";
       repeat split; [in_fields | done..]].
  destruct (d !! "total_spent") eqn:E4; simpl;
    [| exists "total_spent"; repeat split; [in_fields | done..]].
  exfalso. rewrite !elem_of_cons in Hk.
  destruct Hk as [-> | [-> | [-> | [-> | Hk]]]]; try congruence.
  by apply elem_of_nil in Hk.
Qed.

(** ** The route *)

Section Facade.

Context {np : Numpy} (fl : Flask) (model : Classifier np).

Lemma predict_by_cases (req : request fl) :
  App.predict fl model req =
    match handled fl model req with
    | Ok result => {| App.body := PDict result; App.status := 200 |}
    | Raise e =>
        {| App.body := PDict {[ "error" := PStr (py_str e) ]};
           App.status := 400 |}
    end.
Proof.
  unfold App.predict, handled.
  destruct (get_json fl req) as [data | e]; simpl; [| done].
  by destruct (Predict.predict_churn model data).
Qed.

(** C3.  For every request: when parsing and prediction succeed the
    response is 200 with the record, which holds [churn_risk] and
    [confidence]; when either raises [e] the response is 400 with
    [{"error": str(e)}]; and the response is 400 exactly when one of them
    raised. *)
Theorem predict_status (req : request fl) :
  (∀ result, handled fl model req = Ok result →
     App.predict fl model req
       = {| App.body := PDict result; App.status := 200 |}
     ∧ is_Some (result !! "churn_risk")
     ∧ is_Some (result !! "confidence"))
  ∧ (∀ e, handled fl model req = Raise e →
       App.predict fl model req
         = {| App.body := PDict {[ "error" := PStr (py_str e) ]};
              App.status := 400 |})
  ∧ ((∃ e, handled fl model req = Raise e)
     ↔ App.status (App.predict fl model req) = 400).
Proof.
  rewrite predict_by_cases. split; [| split].
  - intros result Hres. rewrite Hres. split; [done |].
    unfold handled in Hres.
    apply bind_Ok in Hres as (data & _ & Hres).
    apply predict_churn_Ok in Hres
      as (? & ? & ? & ? & label & ? & best & _ & _ & _ & _ & _ & _ & _ & ->).
    split; eexists; by simplify_map_eq.
  - intros e He. by rewrite He.
  - split.
    + intros [e He]. by rewrite He.
    + destruct (handled fl model req) as [result | e]; simpl; [done | eauto].
Qed.

(** C6.  A request whose body is a JSON object lacking one of the four
    fields gets 400, and the error string is the non-empty [str] of the
    [KeyError] for the first field it lacks. *)
Theorem missing_field_is_400 (req : request fl) (d : gmap string pyval)
    (k : string) :
  get_json fl req = Ok (PDict d) →
  k ∈ required_fields → d !! k = None →
  ∃ k' msg,
    k' ∈ required_fields ∧ d !! k' = None
    ∧ msg = py_str (KeyError k')
    ∧ App.predict fl model req
        = {| App.body := PDict {[ "error" := PStr msg ]};
             App.status := 400 |}
    ∧ msg ≠ EmptyString ∧ (0 < String.length msg)%nat.
Proof.
  intros Hjson Hk Hnone.
  destruct (feature_rows_missing d k Hk Hnone) as (k' & Hk' & Hnone' & Hrows).
  exists k', (py_str (KeyError k')).
  split; [done |]. split; [done |]. split; [done |]. split.
  - rewrite predict_by_cases. unfold handled. rewrite Hjson. simpl.
    unfold Predict.predict_churn. by rewrite Hrows.
  - simpl. unfold py_repr_str. simpl. split; [done | lia].
Qed.

End Facade.

Lemma missing_field_is_400_witness :
  ∃ k' msg,
    k' ∈ required_fields
    ∧ ({[ "avg_order_value" := PInt 30 ]} : gmap string pyval) !! k' = None
    ∧ msg = py_str (KeyError k')
    ∧ App.predict Stub.flask Stub.forest
        (Some (PDict {[ "avg_order_value" := PInt 30 ]}))
        = {| App.body := PDict {[ "error" := PStr msg ]};
             App.status := 400 |}
    ∧ msg ≠ EmptyString ∧ (0 < String.length msg)%nat.
Proof.
  apply (missing_field_is_400 Stub.flask Stub.forest
           (Some (PDict {[ "avg_order_value" := PInt 30 ]}))
           {[ "avg_order_value" := PInt 30 ]} "total_spent").
  - reflexivity.
  - in_fields.
  - vm_compute. reflexivity.
Defined.

(** ** The hundred trees meet the classifier's contract *)

Lemma traverse_Forall {A B : Type} (f : A → res B) (Q : B → Prop)
    (l : list A) (l' : list B) :
  (∀ x y, f x = Ok y → Q y) → Stub.traverse f l = Ok l' → Forall Q l'.
Proof.
  intros Hf. revert l'. induction l as [| x l IH]; simpl; intros l' H.
  - injection H as <-. constructor.
  - apply bind_Ok in H as (y & Hy & H).
    apply bind_Ok in H as (ys & Hys & H).
    injection H as <-. constructor; eauto.
Qed.

Lemma number_feature_value (v : pyval) :
  feature_value v → ∃ q, Stub.number v = Ok q.
Proof. destruct v; simpl; try done; eauto. Qed.

Lemma churn_votes_range (row : list Q) (c : Z) :
  Stub.churn_votes row = Ok c → 0 ≤ c ≤ 100.
Proof.
  unfold Stub.churn_votes. repeat case_match; try done.
  intros [= <-]. lia.
Qed.

(** Checked on the 101 vote splits of a hundred trees. *)
Lemma split_ok_all : forallb split_ok (Z.of_nat <$> seq 0 101) = true.
Proof. vm_compute. reflexivity. Qed.

(** Whatever the split of its hundred votes, the row a two-class forest
    returns, the binary64 values of [(100 - c)/100] and [c/100], is a
    distribution: so is the row of 0.31 and 0.69. *)
Lemma forest_split_distribution (c : Z) :
  0 ≤ c ≤ 100 →
  distribution 2 [NpFloat (RN53 (inject_Z (100 - c) / 100));
                  NpFloat (RN53 (inject_Z c / 100))].
Proof.
  intros Hc. split; [reflexivity |]. split.
  - destruct (RN53_percent (100 - c)) as [H0 _]; [lia |].
    destruct (RN53_percent c) as [H1 _]; [lia |].
    repeat constructor; eexists; (split; [reflexivity |]); tauto.
  - pose proof split_ok_all as Hall. rewrite forallb_forall in Hall.
    assert (Hin : In c (Z.of_nat <$> seq 0 101)).
    { apply list_elem_of_In, list_elem_of_fmap. exists (Z.to_nat c).
      split; [lia |]. apply list_elem_of_In, in_seq. lia. }
    specialize (Hall c Hin). unfold split_ok in Hall.
    apply andb_prop in Hall as [Hlo Hhi].
    apply Qle_bool_iff in Hlo, Hhi. simpl. by split.
Qed.

Example observed_row_is_distribution :
  distribution 2 [NpFloat (RN53 (31 # 100)); NpFloat (RN53 (69 # 100))].
Proof. apply (forest_split_distribution 69). lia. Qed.

Lemma hundred_fitted :
  fitted Stub.hundred 4 [0; 1; 1; 1; 0; 0].
Proof.
  split.
  - intros row Hlen Hfv.
    destruct row as [| a [| b [| c [| e [| ? ?]]]]]; try done.
    repeat match goal with
           | H : Forall _ (_ :: _) |- _ => apply Forall_cons in H as [? H]
           end.
    destruct (number_feature_value a) as [qa Ha]; [done |].
    destruct (number_feature_value b) as [qb Hb]; [done |].
    destruct (number_feature_value c) as [qc Hc]; [done |].
    destruct (number_feature_value e) as [qe He]; [done |].
    exists [[qa; qb; qc; qe]]. simpl.
    rewrite Ha, Hb, Hc, He. simpl.
    unfold Stub.hundred_predict, Stub.hundred_predict_proba. simpl.
    eauto.
  - intros X ls H. simpl in H. unfold Stub.hundred_predict in H.
    eapply traverse_Forall; [| exact H].
    intros row l Hl. apply bind_Ok in Hl as (v & _ & Hl).
    injection Hl as <-. eexists. split; [done |].
    case_match; rewrite !elem_of_cons; tauto.
  - intros X P H. simpl in H. unfold Stub.hundred_predict_proba in H.
    assert (E : length (remove_dups [0; 1; 1; 1; 0; 0]) = 2%nat)
      by (vm_compute; reflexivity).
    rewrite E.
    eapply traverse_Forall; [| exact H].
    intros row ps Hps. apply bind_Ok in Hps as (c & Hc & Hps).
    apply churn_votes_range in Hc. injection Hps as <-.
    by apply forest_split_distribution.
Qed.

Lemma hundred_fitted_on_data : fitted_on_data Stub.hundred.
Proof.
  eexists _, _. split; [vm_compute; reflexivity |].
  split; [vm_compute; reflexivity |]. exact hundred_fitted.
Qed.

(** ** Loading the prediction module *)

Lemma pickle_unbound {np : Numpy} :
  load_name (<["np" := OModule "numpy"]> (∅ : gmap string (pyobj np)))
    "pickle" = Raise (NameError "pickle").
Proof. reflexivity. Qed.

(** The import ends at the [open] when the file is absent and at the name
    [pickle] when the file opens. *)
Lemma module_init_by_cases {np : Numpy}
    (loads : list Byte.byte → res (Classifier np)) (w : world) :
  Predict.module_init loads w =
    match files w !! Predict.artifact_path with
    | Some _ => Raise (NameError "pickle")
    | None => Raise (FileNotFoundError Predict.artifact_path)
    end.
Proof.
  unfold Predict.module_init, py_open.
  destruct (files w !! Predict.artifact_path); simpl; [| done].
  by rewrite pickle_unbound.
Qed.

(** C4.  With the artifact the Producer writes in place, which [pickle]
    loads to a classifier, importing the prediction module raises
    [NameError] for the name [pickle]; so does importing the facade. *)
Theorem module_init_valid_artifact_fails :
  TrainChurnModel.main Stub.sklearn Stub.pickle 0 Stub.no_artifact
    = Ok Stub.with_artifact
  ∧ files Stub.with_artifact !! Predict.artifact_path = Some Stub.artifact
  ∧ loads Stub.pickle Stub.artifact = Ok Stub.forest
  ∧ Predict.module_init (loads Stub.pickle) Stub.with_artifact
      = Raise (NameError "pickle")
  ∧ App.module_init (loads Stub.pickle) Stub.with_artifact
      = Raise (NameError "pickle").
Proof.
  split; [reflexivity |]. split; [reflexivity |]. split; [reflexivity |].
  assert (H : Predict.module_init (loads Stub.pickle) Stub.with_artifact
              = Raise (NameError "pickle")).
  { rewrite module_init_by_cases. reflexivity. }
  split; [exact H |]. unfold App.module_init. by rewrite H.
Qed.

(** C5, as the code has it.  Importing the prediction module never yields
    the module: when the artifact file opens, whatever it holds, the import
    raises [NameError] for [pickle]; when the file is absent, [open] raises
    [FileNotFoundError] before the name [pickle] is looked up. *)
Theorem module_init_always_raises {np : Numpy}
    (loads : list Byte.byte → res (Classifier np)) (w : world) :
  (∃ e, Predict.module_init loads w = Raise e)
  ∧ (∀ content, files w !! Predict.artifact_path = Some content →
       Predict.module_init loads w = Raise (NameError "pickle"))
  ∧ (files w !! Predict.artifact_path = None →
       Predict.module_init loads w
         = Raise (FileNotFoundError "server/ml/churn_model.pkl")).
Proof.
  rewrite module_init_by_cases.
  split; [destruct (files w !! Predict.artifact_path); eauto |].
  split; [by intros content -> | by intros ->].
Qed.

(** C5, as stated, fails where the artifact file is absent: the import
    raises [FileNotFoundError], not [NameError]. *)
Lemma module_init_absent_file_not_NameError :
  Predict.module_init (loads Stub.pickle) Stub.no_artifact
    = Raise (FileNotFoundError "server/ml/churn_model.pkl")
  ∧ ¬ (∃ name, Predict.module_init (loads Stub.pickle) Stub.no_artifact
                 = Raise (NameError name)).
Proof.
  assert (H : Predict.module_init (loads Stub.pickle) Stub.no_artifact
              = Raise (FileNotFoundError "server/ml/churn_model.pkl")).
  { rewrite module_init_by_cases. reflexivity. }
  split; [exact H |]. rewrite H. by intros [name Hname].
Qed.

(** ** Range of the prediction record *)

Lemma sample_fields :
  Predict.feature_rows Predict.sample
    = Ok [[PInt 30; PInt 3; PInt 45; PInt 150]].
Proof. by vm_compute. Qed.

Section Range.

Context {np : Numpy} (model : Classifier np).

(** What a successful call returns: [int] of a label the model gave, and
    the rounding of the greatest entry of a probability row it gave. *)
Lemma record_source (customer_data : pyval) (result : gmap string pyval) :
  Predict.predict_churn model customer_data = Ok result →
  ∃ X ls P label row best,
    predict model X = Ok ls ∧ label ∈ ls
    ∧ predict_proba model X = Ok P ∧ row ∈ P
    ∧ best ∈ row
    ∧ Forall (fun q => (np_value q <= np_value best)%Q) row
    ∧ result = {[ "churn_risk" := PInt (py_int label);
                  "confidence" := PFloat (py_round2 (py_float best)) ]}.
Proof.
  intros Hres.
  apply predict_churn_Ok in Hres
    as (rows & X & ls & P & label & row & best
        & _ & _ & Hls & HP & Hlabel & Hrow & Hbest & ->).
  apply py_max_spec in Hbest as [Hin Hmax].
  by exists X, ls, P, label, row, best.
Qed.

(** The same for a model that keeps the contract: a label seen in
    training, and the rounding of the greatest entry [x] of a
    distribution. *)
Lemma fitted_result (n_features : nat) (y : list Z)
    (customer_data : pyval) (result : gmap string pyval) :
  fitted model n_features y →
  Predict.predict_churn model customer_data = Ok result →
  ∃ (z : Z) (row : list npscalar) (x : Q),
    result = {[ "churn_risk" := PInt z;
                "confidence" := PFloat (py_round2 x) ]}
    ∧ z ∈ y
    ∧ distribution (length (remove_dups y)) row
    ∧ Forall (fun q => (np_value q <= x)%Q) row
    ∧ (0 <= x <= 1)%Q.
Proof.
  intros Hfit Hres.
  destruct (record_source _ _ Hres)
    as (X & ls & P & label & row & best
        & Hls & Hlabel & HP & Hrow & Hin & Hmax & ->).
  pose proof (fitted_labels _ _ _ Hfit X ls Hls) as Hlabels.
  rewrite Forall_forall in Hlabels.
  destruct (Hlabels label Hlabel) as (z & -> & Hz).
  pose proof (fitted_proba _ _ _ Hfit X P HP) as Hrows.
  rewrite Forall_forall in Hrows. specialize (Hrows row Hrow).
  destruct (distribution_elem _ row best Hrows Hin) as (x & -> & Hx).
  by exists z, row, x.
Qed.

(** A model fitted on the Producer's data answers with the labels 0 and 1
    and with probabilities between 0 and 1. *)
Lemma fitted_on_data_answers :
  fitted_on_data model →
  labels_in model [0; 1] ∧ probabilities_in_unit model.
Proof.
  intros (Xt & yt & _ & Hyt & Hfit).
  vm_compute in Hyt. injection Hyt as <-. split.
  - intros X ls Hls. pose proof (fitted_labels _ _ _ Hfit X ls Hls) as H.
    eapply Forall_impl; [exact H |].
    intros l (z & -> & Hz). exists z. split; [done |].
    rewrite !elem_of_cons in Hz. rewrite !elem_of_cons. tauto.
  - intros X P HP. pose proof (fitted_proba _ _ _ Hfit X P HP) as H.
    eapply Forall_impl; [exact H |].
    intros row (_ & Hrow & _). exact Hrow.
Qed.

(** C7, as the code has it.  For a model that answers with the labels 0
    and 1 and with probabilities between 0 and 1, every successful call
    returns a [churn_risk] of 0 or 1 and a [confidence] between 0 and 1 that
    is the binary64 value of a decimal [k/100]. *)
Theorem predict_churn_range (customer_data : pyval)
    (result : gmap string pyval) :
  labels_in model [0; 1] →
  probabilities_in_unit model →
  Predict.predict_churn model customer_data = Ok result →
  ∃ (z : Z) (c : Q) (k : Z),
    result = {[ "churn_risk" := PInt z; "confidence" := PFloat c ]}
    ∧ (z = 0 ∨ z = 1)
    ∧ (0 <= c <= 1)%Q
    ∧ 0 ≤ k ≤ 100 ∧ c = RN53 (inject_Z k / 100).
Proof.
  intros Hlabels Hprobas Hres.
  destruct (record_source _ _ Hres)
    as (X & ls & P & label & row & best
        & Hls & Hlabel & HP & Hrow & Hin & _ & ->).
  specialize (Hlabels X ls Hls). rewrite Forall_forall in Hlabels.
  destruct (Hlabels label Hlabel) as (z & -> & Hz).
  specialize (Hprobas X P HP). rewrite Forall_forall in Hprobas.
  specialize (Hprobas row Hrow). rewrite Forall_forall in Hprobas.
  destruct (Hprobas best Hin) as (x & -> & Hx).
  destruct (py_round2_unit x Hx) as (k & Hk & Hround & Hunit).
  exists z, (py_round2 x), k.
  split; [done |]. split; [| done].
  rewrite !elem_of_cons in Hz.
  destruct Hz as [-> | [-> | Hz]]; auto.
  by apply elem_of_nil in Hz.
Qed.

(** C9.  With a model fitted on the Producer's six rows, the sample
    input of the [__main__] block is answered, with a [churn_risk] of 0 or
    1 and a [confidence] between 0.5 and 1. *)
Theorem sample_prediction_range :
  fitted_on_data model →
  ∃ (z : Z) (c : Q),
    Predict.main model
      = Ok {[ "churn_risk" := PInt z; "confidence" := PFloat c ]}
    ∧ (z = 0 ∨ z = 1)
    ∧ (1 # 2 <= c <= 1)%Q.
Proof.
  intros (Xt & yt & HXt & Hyt & Hfit).
  vm_compute in HXt. injection HXt as <-.
  vm_compute in Hyt. injection Hyt as <-.
  destruct (fitted_accepts _ _ _ Hfit [PInt 30; PInt 3; PInt 45; PInt 150])
    as (X & l & ps & HX & Hl & Hps).
  { reflexivity. }
  { repeat constructor; simpl; lia. }
  pose proof (fitted_proba _ _ _ Hfit X _ Hps) as Hrows.
  apply Forall_cons in Hrows as [Hps2 _].
  assert (Hlen : length ps = 2%nat) by apply Hps2.
  destruct ps as [| p ps']; [done |].
  pose proof (predict_churn_first_row model _ _ X l [] p ps' []
                sample_fields HX Hl Hps) as Hcall.
  destruct (fitted_result _ _ _ _ Hfit Hcall)
    as (z & row & x & Heq & Hz & Hrow & Hmax & Hx).
  exists z, (py_round2 x). unfold Predict.main.
  rewrite Hcall, Heq. split; [done |]. split.
  - rewrite !elem_of_cons in Hz.
    destruct Hz as [-> | [-> | [-> | [-> | [-> | [-> | Hz]]]]]]; auto.
    by apply elem_of_nil in Hz.
  - apply py_round2_upper_half; [| apply Hx].
    exact (distribution_two_max row (NpFloat x) Hrow Hmax).
Qed.

End Range.

Lemma hundred_answers :
  labels_in Stub.hundred [0; 1] ∧ probabilities_in_unit Stub.hundred.
Proof. apply fitted_on_data_answers, hundred_fitted_on_data. Qed.

Lemma predict_churn_range_witness :
  ∃ (z : Z) (c : Q) (k : Z),
    ({[ "churn_risk" := PInt 1;
        "confidence" := PFloat (py_round2 (RN53 (60 # 100))) ]}
       : gmap string pyval)
      = {[ "churn_risk" := PInt z; "confidence" := PFloat c ]}
    ∧ (z = 0 ∨ z = 1)
    ∧ (0 <= c <= 1)%Q
    ∧ 0 ≤ k ≤ 100 ∧ c = RN53 (inject_Z k / 100).
Proof.
  apply (predict_churn_range Stub.hundred Predict.sample _
           (proj1 hundred_answers) (proj2 hundred_answers)).
  vm_compute. reflexivity.
Defined.

(** C7, as stated, fails on a loaded object that is no classifier of
    churn: the call succeeds with a [churn_risk] of 3 and a [confidence]
    of 7. *)
Lemma off_contract_out_of_range :
  Predict.predict_churn Stub.off_contract Predict.sample
    = Ok {[ "churn_risk" := PInt 3; "confidence" := PFloat 7 ]}
  ∧ ¬ (3 = 0 ∨ 3 = 1)
  ∧ ¬ (7 <= 1)%Q.
Proof.
  split; [vm_compute; reflexivity |]. split; [lia |].
  unfold Qle. simpl. lia.
Qed.

Lemma sample_prediction_range_witness :
  ∃ (z : Z) (c : Q),
    Predict.main Stub.hundred
      = Ok {[ "churn_risk" := PInt z; "confidence" := PFloat c ]}
    ∧ (z = 0 ∨ z = 1)
    ∧ (1 # 2 <= c <= 1)%Q.
Proof.
  apply (sample_prediction_range Stub.hundred hundred_fitted_on_data).
Defined.

Example hundred_on_sample :
  Predict.main Stub.hundred
    = Ok {[ "churn_risk" := PInt 1;
            "confidence" := PFloat (RN53 (60 # 100)) ]}.
Proof. vm_compute. reflexivity. Qed.

(** ** Repeated calls *)

Section Determinism.

Context {np : Numpy} (m : Estimator np).




End Determinism.



(** An object that changes with each call is no fixed model, and two calls
    with the same input differ on it. *)
Example counting_object_differs :
  (Predict.run Stub.counting [Predict.sample; Predict.sample] 0).1
    = [ Ok {[ "churn_risk" := PInt 0; "confidence" := PFloat 1 ]};
        Ok {[ "churn_risk" := PInt 1; "confidence" := PFloat 1 ]} ]
  ∧ ¬ fixed_handle Stub.counting.
Proof.
  split; [vm_compute; reflexivity |].
  intros H. destruct (H [] 0) as [H1 _]. simpl in H1. lia.
Qed.

(** * Further properties of the code *)

(** ** The route's answers *)

(** The nested list is built only from a mapping that holds the four
    fields. *)
Lemma feature_rows_Ok (v : pyval) (rows : list (list pyval)) :
  Predict.feature_rows v = Ok rows →
  ∃ d a b c e,
    v = PDict d
    ∧ d !! "avg_order_value" = Some a
    ∧ d !! "purchase_frequency" = Some b
    ∧ d !! "days_since_last_purchase" = Some c
    ∧ d !! "total_spent" = Some e
    ∧ rows = [[a; b; c; e]].
Proof.
  unfold Predict.feature_rows. destruct v as [| | | | | | d]; simpl; try done.
  destruct (d !! "avg_order_value") as [a |] eqn:Ea; simpl; [| done].
  destruct (d !! "purchase_frequency") as [b |] eqn:Eb; simpl; [| done].
  destruct (d !! "days_since_last_purchase") as [c |] eqn:Ec; simpl; [| done].
  destruct (d !! "total_spent") as [e |] eqn:Ee; simpl; [| done].
  intros [= <-]. by exists d, a, b, c, e.
Qed.

Lemma getitem_non_object (v : pyval) (key : string) :
  (∀ d, v ≠ PDict d) →
  ∃ msg, py_getitem v key = Raise (TypeError msg) ∧ msg ≠ EmptyString.
Proof.
  intros Hv. destruct v; simpl; try (by eexists; split; [reflexivity |]).
  by destruct (Hv d).
Qed.

Section Answers.

Context {np : Numpy} (fl : Flask) (model : Classifier np).

(** The route has two answers only: 200 with an integer [churn_risk] and
    a float [confidence], or 400 with a string [error]. *)
Theorem response_shape (req : request fl) :
  let r := App.predict fl model req in
  (App.status r = 200
   ∧ ∃ (z : Z) (c : Q),
       App.body r
         = PDict {[ "churn_risk" := PInt z; "confidence" := PFloat c ]})
  ∨ (App.status r = 400
     ∧ ∃ msg, App.body r = PDict {[ "error" := PStr msg ]}).
Proof.
  simpl. rewrite predict_by_cases.
  destruct (handled fl model req) as [result | e] eqn:Hres; simpl.
  - left. split; [done |]. unfold handled in Hres.
    apply bind_Ok in Hres as (data & _ & Hres).
    apply predict_churn_Ok in Hres
      as (? & ? & ? & ? & label & ? & best & _ & _ & _ & _ & _ & _ & _ & ->).
    by eexists _, _.
  - right. split; [done |]. by eexists.
Qed.

(** A 200 is given only to a body that is a JSON object holding all four
    fields. *)
Theorem ok_needs_all_fields (req : request fl) :
  App.status (App.predict fl model req) = 200 →
  ∃ d, get_json fl req = Ok (PDict d)
       ∧ ∀ k, k ∈ required_fields → is_Some (d !! k).
Proof.
  rewrite predict_by_cases.
  destruct (handled fl model req) as [result | e] eqn:Hres; simpl; [| done].
  intros _. unfold handled in Hres.
  apply bind_Ok in Hres as (data & Hjson & Hres).
  apply predict_churn_Ok in Hres as (rows & ? & ? & ? & ? & ? & ? & Hrows & _).
  apply feature_rows_Ok in Hrows
    as (d & a & b & c & e & -> & Ha & Hb & Hc & He & _).
  exists d. split; [done |].
  intros k Hk. unfold required_fields in Hk. rewrite !elem_of_cons in Hk.
  destruct Hk as [-> | [-> | [-> | [-> | Hk]]]]; eauto.
  by apply elem_of_nil in Hk.
Qed.

(** A body that parses to something else than an object (a list, a
    string, a number, a boolean, null) gets 400: the first subscript raises
    [TypeError] before the model is asked. *)
Theorem non_object_body_is_400 (req : request fl) (v : pyval) :
  get_json fl req = Ok v →
  (∀ d, v ≠ PDict d) →
  ∃ msg,
    Predict.predict_churn model v = Raise (TypeError msg)
    ∧ msg ≠ EmptyString
    ∧ App.predict fl model req
        = {| App.body := PDict {[ "error" := PStr msg ]};
             App.status := 400 |}.
Proof.
  intros Hjson Hv.
  destruct (getitem_non_object v "avg_order_value" Hv) as (msg & Hget & Hmsg).
  assert (Hcall : Predict.predict_churn model v = Raise (TypeError msg)).
  { unfold Predict.predict_churn, Predict.feature_rows. by rewrite Hget. }
  exists msg. split; [done |]. split; [done |].
  rewrite predict_by_cases. unfold handled. rewrite Hjson. simpl.
  by rewrite Hcall.
Qed.

(** The fields are read in the order avg_order_value, purchase_frequency,
    days_since_last_purchase, total_spent, and the first one the mapping
    lacks is the one the [KeyError] names, whatever else is absent. *)
Theorem first_missing_field_is_reported (d : gmap string pyval)
    (before : list string) (k : string) (after : list string) :
  required_fields = before ++ k :: after →
  (∀ k', k' ∈ before → is_Some (d !! k')) →
  d !! k = None →
  Predict.predict_churn model (PDict d) = Raise (KeyError k).
Proof.
  intros Hsplit Hbefore Hnone.
  assert (Hrows : Predict.feature_rows (PDict d) = Raise (KeyError k)).
  { unfold required_fields in Hsplit. unfold Predict.feature_rows. simpl.
    destruct before as [| k1 [| k2 [| k3 [| k4 rest]]]];
      simplify_eq/=.
    - by rewrite Hnone.
    - destruct (Hbefore "avg_order_value") as [? ->];
        [rewrite !elem_of_cons; tauto |].
      simpl. by rewrite Hnone.
    - destruct (Hbefore "avg_order_value") as [? ->];
        [rewrite !elem_of_cons; tauto |].
      destruct (Hbefore "purchase_frequency") as [? ->];
        [rewrite !elem_of_cons; tauto |].
      simpl. by rewrite Hnone.
    - destruct (Hbefore "avg_order_value") as [? ->];
        [rewrite !elem_of_cons; tauto |].
      destruct (Hbefore "purchase_frequency") as [? ->];
        [rewrite !elem_of_cons; tauto |].
      destruct (Hbefore "days_since_last_purchase") as [? ->];
        [rewrite !elem_of_cons; tauto |].
      simpl. by rewrite Hnone.
    - by destruct rest. }
  unfold Predict.predict_churn. by rewrite Hrows.
Qed.

(** Only the four fields are read: two mappings that agree on them get the
    same result, whatever other keys they hold. *)
Theorem only_required_fields_matter (d1 d2 : gmap string pyval) :
  (∀ k, k ∈ required_fields → d1 !! k = d2 !! k) →
  Predict.predict_churn model (PDict d1)
    = Predict.predict_churn model (PDict d2).
Proof.
  intros Hagree.
  assert (Hrows : Predict.feature_rows (PDict d1)
                  = Predict.feature_rows (PDict d2)).
  { unfold Predict.feature_rows. simpl.
    rewrite (Hagree "avg_order_value") by in_fields.
    rewrite (Hagree "purchase_frequency") by in_fields.
    rewrite (Hagree "days_since_last_purchase") by in_fields.
    by rewrite (Hagree "total_spent") by in_fields. }
  unfold Predict.predict_churn. by rewrite Hrows.
Qed.

(** Whatever raises inside the [try] block, the parser, [np.array],
    [model.predict] or [model.predict_proba], the answer is 400 with the
    string of that exception. *)
Theorem library_failure_is_400 (req : request fl) (e : exn) :
  get_json fl req = Raise e
  ∨ (∃ data rows,
       get_json fl req = Ok data
       ∧ Predict.feature_rows data = Ok rows
       ∧ (array np rows = Raise e
          ∨ ∃ X, array np rows = Ok X
                 ∧ (predict model X = Raise e
                    ∨ ∃ ls, predict model X = Ok ls
                            ∧ predict_proba model X = Raise e))) →
  App.predict fl model req
    = {| App.body := PDict {[ "error" := PStr (py_str e) ]};
         App.status := 400 |}.
Proof.
  intros H. rewrite predict_by_cases. unfold handled.
  destruct H as [-> | (data & rows & -> & Hrows & H)]; simpl; [done |].
  unfold Predict.predict_churn. rewrite Hrows. simpl.
  destruct H as [-> | (X & -> & H)]; simpl; [done |].
  destruct H as [-> | (ls & -> & ->)]; simpl; done.
Qed.

End Answers.

Lemma ok_needs_all_fields_witness :
  ∃ d, get_json Stub.flask (Some Predict.sample) = Ok (PDict d)
       ∧ ∀ k, k ∈ required_fields → is_Some (d !! k).
Proof.
  apply (ok_needs_all_fields Stub.flask Stub.forest (Some Predict.sample)).
  vm_compute. reflexivity.
Defined.

Lemma non_object_body_is_400_witness :
  ∃ msg,
    Predict.predict_churn Stub.forest (PList [PInt 30; PInt 3])
      = Raise (TypeError msg)
    ∧ msg ≠ EmptyString
    ∧ App.predict Stub.flask Stub.forest (Some (PList [PInt 30; PInt 3]))
        = {| App.body := PDict {[ "error" := PStr msg ]};
             App.status := 400 |}.
Proof.
  apply (non_object_body_is_400 Stub.flask Stub.forest
           (Some (PList [PInt 30; PInt 3])) (PList [PInt 30; PInt 3])).
  - reflexivity.
  - intros d. discriminate.
Defined.

Lemma first_missing_field_is_reported_witness :
  Predict.predict_churn Stub.forest
    (PDict {[ "avg_order_value" := PInt 30; "total_spent" := PInt 150 ]})
    = Raise (KeyError "purchase_frequency").
Proof.
  apply (first_missing_field_is_reported Stub.forest
           {[ "avg_order_value" := PInt 30; "total_spent" := PInt 150 ]}
           ["avg_order_value"] "purchase_frequency"
           ["days_since_last_purchase"; "total_spent"]).
  - reflexivity.
  - intros k' Hk. apply list_elem_of_singleton in Hk as ->.
    exists (PInt 30). vm_compute. reflexivity.
  - vm_compute. reflexivity.
Defined.

Lemma only_required_fields_matter_witness :
  Predict.predict_churn Stub.forest
    (PDict (<["customer_name" := PStr "Ada"]>
              {[ "avg_order_value" := PInt 30;
                 "purchase_frequency" := PInt 3;
                 "days_since_last_purchase" := PInt 45;
                 "total_spent" := PInt 150 ]}))
    = Predict.predict_churn Stub.forest
        (PDict {[ "avg_order_value" := PInt 30;
                  "purchase_frequency" := PInt 3;
                  "days_since_last_purchase" := PInt 45;
                  "total_spent" := PInt 150 ]}).
Proof.
  apply (only_required_fields_matter Stub.forest).
  intros k Hk. unfold required_fields in Hk. rewrite !elem_of_cons in Hk.
  destruct Hk as [-> | [-> | [-> | [-> | Hk]]]];
    [vm_compute; reflexivity .. |].
  by apply elem_of_nil in Hk.
Defined.

Lemma library_failure_is_400_witness :
  App.predict Stub.flask Stub.forest
    (Some (PDict {[ "avg_order_value" := PStr "thirty";
                    "purchase_frequency" := PInt 3;
                    "days_since_last_purchase" := PInt 45;
                    "total_spent" := PInt 150 ]}))
    = {| App.body :=
           PDict {[ "error" := PStr "could not convert to float" ]};
         App.status := 400 |}.
Proof.
  apply (library_failure_is_400 Stub.flask Stub.forest
           (Some (PDict {[ "avg_order_value" := PStr "thirty";
                           "purchase_frequency" := PInt 3;
                           "days_since_last_purchase" := PInt 45;
                           "total_spent" := PInt 150 ]}))
           (ValueError "could not convert to float")).
  right.
  exists (PDict {[ "avg_order_value" := PStr "thirty";
                   "purchase_frequency" := PInt 3;
                   "days_since_last_purchase" := PInt 45;
                   "total_spent" := PInt 150 ]}),
         [[PStr "thirty"; PInt 3; PInt 45; PInt 150]].
  split; [reflexivity |]. split; [vm_compute; reflexivity |].
  left. reflexivity.
Defined.

(** ** Answers the subscripts and [max] cannot use *)

Section Degenerate.

Context {np : Numpy} (model : Classifier np).

(** When the model answers with no label, with no probability row, or
    with an empty first probability row, [predict_churn] raises: [IndexError]
    from the subscript [[0]], or [ValueError] from [max].  It never returns a
    record with a field left out. *)
Theorem empty_answer_raises (data : pyval) (rows : list (list pyval))
    (X : ndarray np) (ls : list npscalar) (P : list (list npscalar)) :
  Predict.feature_rows data = Ok rows →
  array np rows = Ok X →
  predict model X = Ok ls →
  predict_proba model X = Ok P →
  ls = [] ∨ P = [] ∨ (∃ P', P = [] :: P') →
  Predict.predict_churn model data
    = Raise (match ls, P with
             | _ :: _, [] :: _ => ValueError "max() arg is an empty sequence"
             | _, _ =>
                 IndexError "index 0 is out of bounds for axis 0 with size 0"
             end).
Proof.
  intros Hrows HX Hls HP Hdeg.
  rewrite (predict_churn_unfold model _ _ _ _ _ Hrows HX Hls HP).
  destruct ls as [| l ls]; [done |]. simpl.
  destruct Hdeg as [? | [-> | [P' ->]]]; done.
Qed.

End Degenerate.

Lemma empty_answer_raises_witness :
  Predict.predict_churn Mute.empty_row Predict.sample
    = Raise (ValueError "max() arg is an empty sequence").
Proof.
  apply (empty_answer_raises Mute.empty_row Predict.sample
           [[PInt 30; PInt 3; PInt 45; PInt 150]]
           [[30; 3; 45; 150]%Q] [NpInt 0] [[]]).
  - vm_compute. reflexivity.
  - reflexivity.
  - reflexivity.
  - reflexivity.
  - right. right. by exists [].
Defined.

Example no_label_raises :
  Predict.predict_churn Mute.no_label Predict.sample
    = Raise (IndexError "index 0 is out of bounds for axis 0 with size 0")
  ∧ Predict.predict_churn Mute.no_row Predict.sample
    = Raise (IndexError "index 0 is out of bounds for axis 0 with size 0").
Proof. split; vm_compute; reflexivity. Qed.

(** ** Loading and training *)

(** Importing the facade runs the prediction module first and ends with
    the same exception: the route is never registered. *)
Theorem app_init_fails_as_predict_init {np : Numpy}
    (loads : list Byte.byte → res (Classifier np)) (w : world) :
  ∃ e, Predict.module_init loads w = Raise e
       ∧ App.module_init loads w = Raise e.
Proof.
  unfold App.module_init. rewrite module_init_by_cases.
  destruct (files w !! Predict.artifact_path); eexists; split; reflexivity.
Qed.

Section Producer.

Context {np : Numpy} (sk : Sklearn np) (pk : Pickle np).

(** A run of the training script that ends well has fitted on the four
    feature columns, without the label column, and on the labels; it has
    put the pickled model at the artifact path, over what was there, and
    left every other file as it was. *)
Theorem main_writes_only_the_artifact (seed : N) (w w' : world) :
  TrainChurnModel.main sk pk seed w = Ok w' →
  ∃ X y model,
    TrainChurnModel.X = Ok X ∧ TrainChurnModel.y = Ok y
    ∧ fit sk seed X y = Ok model
    ∧ ("churned" ∉ TrainChurnModel.columns X)
    ∧ TrainChurnModel.columns X = required_fields
    ∧ Forall (fun c => length c.2 = length y) X
    ∧ files w' !! TrainChurnModel.artifact_path = Some (dumps pk model)
    ∧ ∀ path, path ≠ TrainChurnModel.artifact_path →
              files w' !! path = files w !! path.
Proof.
  unfold TrainChurnModel.main. intros H.
  apply bind_Ok in H as (X & HX & H).
  apply bind_Ok in H as (y & Hy & H).
  apply bind_Ok in H as (model & Hfit & H).
  injection H as <-.
  exists X, y, model. split; [done |]. split; [done |]. split; [done |].
  vm_compute in HX. injection HX as <-.
  vm_compute in Hy. injection Hy as <-.
  split; [| split; [reflexivity | split]].
  - unfold TrainChurnModel.columns. simpl. rewrite !elem_of_cons.
    intros [? | [? | [? | [? | Hnil]]]]; try done.
    by apply elem_of_nil in Hnil.
  - by repeat constructor.
  - simpl. split; [apply lookup_insert_eq |].
    intros path Hpath. by apply lookup_insert_ne.
Qed.

(** Training, then serving: the service finds the file the Producer
    wrote, for both name the same path, and its import still ends in
    [NameError]. *)
Theorem train_then_import_raises_NameError (seed : N) (w w' : world)
    (loads' : list Byte.byte → res (Classifier np)) :
  TrainChurnModel.main sk pk seed w = Ok w' →
  (∃ model, fit sk seed
              [ ("avg_order_value", [50; 20; 300; 10; 100; 85]);
                ("purchase_frequency", [10; 2; 1; 0; 4; 5]);
                ("days_since_last_purchase", [5; 60; 90; 120; 30; 15]);
                ("total_spent", [500; 40; 300; 10; 400; 420]) ]
              [0; 1; 1; 1; 0; 0] = Ok model
            ∧ py_open w' Predict.artifact_path = Ok (dumps pk model))
  ∧ Predict.module_init loads' w' = Raise (NameError "pickle").
Proof.
  unfold TrainChurnModel.main. intros H.
  apply bind_Ok in H as (X & HX & H).
  apply bind_Ok in H as (y & Hy & H).
  apply bind_Ok in H as (model & Hfit & H).
  injection H as <-.
  vm_compute in HX. injection HX as <-.
  vm_compute in Hy. injection Hy as <-.
  assert (Hfile : <[TrainChurnModel.artifact_path := dumps pk model]>
                    (files w) !! Predict.artifact_path
                  = Some (dumps pk model)) by apply lookup_insert_eq.
  split.
  - exists model. split; [exact Hfit |]. unfold py_open. simpl.
    by rewrite Hfile.
  - rewrite module_init_by_cases. simpl. by rewrite Hfile.
Qed.

End Producer.

Lemma main_writes_only_the_artifact_witness :
  ∃ X y model,
    TrainChurnModel.X = Ok X ∧ TrainChurnModel.y = Ok y
    ∧ fit Stub.sklearn 7 X y = Ok model
    ∧ ("churned" ∉ TrainChurnModel.columns X)
    ∧ TrainChurnModel.columns X = required_fields
    ∧ Forall (fun c => length c.2 = length y) X
    ∧ files {| files := <[TrainChurnModel.artifact_path := Stub.artifact]>
                          {[ TrainChurnModel.artifact_path := [Byte.x00];
                             "README.md" := [Byte.x23] ]} |}
        !! TrainChurnModel.artifact_path
      = Some (dumps Stub.pickle model)
    ∧ ∀ path, path ≠ TrainChurnModel.artifact_path →
        files {| files := <[TrainChurnModel.artifact_path := Stub.artifact]>
                            {[ TrainChurnModel.artifact_path := [Byte.x00];
                               "README.md" := [Byte.x23] ]} |}
          !! path
        = files {| files := {[ TrainChurnModel.artifact_path := [Byte.x00];
                               "README.md" := [Byte.x23] ]} |}
            !! path.
Proof.
  apply (main_writes_only_the_artifact Stub.sklearn Stub.pickle 7
           {| files := {[ TrainChurnModel.artifact_path := [Byte.x00];
                          "README.md" := [Byte.x23] ]} |}).
  reflexivity.
Defined.

Lemma train_then_import_raises_NameError_witness :
  (∃ model, fit Stub.sklearn 7
              [ ("avg_order_value", [50; 20; 300; 10; 100; 85]);
                ("purchase_frequency", [10; 2; 1; 0; 4; 5]);
                ("days_since_last_purchase", [5; 60; 90; 120; 30; 15]);
                ("total_spent", [500; 40; 300; 10; 400; 420]) ]
              [0; 1; 1; 1; 0; 0] = Ok model
            ∧ py_open Stub.with_artifact Predict.artifact_path
              = Ok (dumps Stub.pickle model))
  ∧ Predict.module_init (loads Stub.pickle) Stub.with_artifact
    = Raise (NameError "pickle").
Proof.
  apply (train_then_import_raises_NameError Stub.sklearn Stub.pickle 7
           Stub.no_artifact Stub.with_artifact (loads Stub.pickle)).
  reflexivity.
Defined.

(** ** Rounding the confidence *)

Lemma percent_In (k : Z) : 0 ≤ k ≤ 100 → In k (Z.of_nat <$> seq 0 101).
Proof.
  intros Hk. apply list_elem_of_In, list_elem_of_fmap. exists (Z.to_nat k).
  split; [lia |]. apply list_elem_of_In, in_seq. lia.
Qed.

(** Checked on the pairs of the 101 decimals 0.00, ..., 1.00. *)
Lemma percent_le_all :
  forallb (fun k1 => forallb (percent_le k1) (Z.of_nat <$> seq 0 101))
    (Z.of_nat <$> seq 0 101) = true.
Proof. vm_compute. reflexivity. Qed.

Lemma percent_fixed_all :
  forallb percent_fixed (Z.of_nat <$> seq 0 101) = true.
Proof. vm_compute. reflexivity. Qed.

Lemma round_percent (x : Q) :
  (0 <= x <= 1)%Q → 0 ≤ round_half_even (x * 100) ≤ 100.
Proof.
  intros [H0 H1]. apply round_half_even_between;
    [change (inject_Z 0) with 0%Q | change (inject_Z 100) with 100%Q]; lra.
Qed.

(** A greater probability never gets a smaller confidence. *)
Theorem py_round2_monotone (x y : Q) :
  (0 <= x)%Q → (x <= y)%Q → (y <= 1)%Q →
  (py_round2 x <= py_round2 y)%Q.
Proof.
  intros H0 Hxy H1. unfold py_round2.
  assert (Hkx : 0 ≤ round_half_even (x * 100) ≤ 100)
    by (apply round_percent; lra).
  assert (Hky : 0 ≤ round_half_even (y * 100) ≤ 100)
    by (apply round_percent; lra).
  assert (Hle : round_half_even (x * 100) ≤ round_half_even (y * 100))
    by (apply round_half_even_mono; lra).
  pose proof percent_le_all as Hall. rewrite forallb_forall in Hall.
  specialize (Hall _ (percent_In _ Hkx)). rewrite forallb_forall in Hall.
  specialize (Hall _ (percent_In _ Hky)). unfold percent_le in Hall.
  apply orb_prop in Hall as [Hlt | Hq].
  - apply Z.ltb_lt in Hlt. lia.
  - by apply Qle_bool_iff.
Qed.

Lemma py_round2_monotone_witness :
  (py_round2 (1 # 3) <= py_round2 (2 # 3))%Q.
Proof.
  apply (py_round2_monotone (1 # 3) (2 # 3));
    unfold Qle; simpl; lia.
Defined.

(** Rounding a rounded probability changes nothing. *)
Lemma py_round2_idempotent (x : Q) :
  (0 <= x <= 1)%Q → py_round2 (py_round2 x) = py_round2 x.
Proof.
  intros Hx. pose proof (round_percent x Hx) as Hk.
  pose proof percent_fixed_all as Hall. rewrite forallb_forall in Hall.
  specialize (Hall _ (percent_In _ Hk)). unfold percent_fixed in Hall.
  apply Z.eqb_eq in Hall.
  unfold py_round2 at 1. fold (py_round2 x).
  unfold py_round2 at 1 2. by rewrite Hall.
Qed.

Section Confidence.

Context {np : Numpy} (model : Classifier np).

(** The confidence of a successful call is the binary64 value of a
    two-digit decimal [k/100] that lies within 0.005 of the greatest entry
    of a probability row the model returned. *)
Theorem confidence_near_max_probability (data : pyval)
    (result : gmap string pyval) :
  Predict.predict_churn model data = Ok result →
  ∃ (best : npscalar) (k : Z),
    (∃ X P row,
       predict_proba model X = Ok P ∧ row ∈ P ∧ py_max row = Ok best)
    ∧ result !! "confidence" = Some (PFloat (RN53 (inject_Z k / 100)))
    ∧ (py_float best - (1 # 200) <= inject_Z k / 100)%Q
    ∧ (inject_Z k / 100 <= py_float best + (1 # 200))%Q.
Proof.
  intros Hres.
  apply predict_churn_Ok in Hres
    as (rows & X & ls & P & label & row & best
        & _ & _ & _ & HP & _ & Hrow & Hbest & ->).
  exists best, (round_half_even (py_float best * 100)).
  split; [by exists X, P, row |]. split.
  - by rewrite lookup_insert_ne, lookup_singleton_eq.
  - destruct (round_half_even_near (py_float best * 100)) as [Hlo Hhi].
    unfold Qdiv. change (/ 100)%Q with (1 # 100)%Q.
    split; lra.
Qed.

(** When the model answers with probabilities between 0 and 1, the
    confidence of a successful call is its own rounding to two decimals. *)
Theorem confidence_is_rounded (data : pyval) (result : gmap string pyval) :
  probabilities_in_unit model →
  Predict.predict_churn model data = Ok result →
  ∃ c, result !! "confidence" = Some (PFloat c) ∧ py_round2 c = c.
Proof.
  intros Hprobas Hres.
  destruct (record_source _ _ _ Hres)
    as (X & ls & P & label & row & best
        & _ & _ & HP & Hrow & Hin & _ & ->).
  specialize (Hprobas X P HP). rewrite Forall_forall in Hprobas.
  specialize (Hprobas row Hrow). rewrite Forall_forall in Hprobas.
  destruct (Hprobas best Hin) as (x & -> & Hx).
  exists (py_round2 x). split.
  - by rewrite lookup_insert_ne, lookup_singleton_eq.
  - by apply py_round2_idempotent.
Qed.

End Confidence.

Lemma confidence_near_max_probability_witness :
  ∃ (best : npscalar) (k : Z),
    (∃ X P row,
       predict_proba Stub.forest X = Ok P ∧ row ∈ P ∧ py_max row = Ok best)
    ∧ ({[ "churn_risk" := PInt 0;
          "confidence" := PFloat (py_round2 (2 # 3)) ]}
         : gmap string pyval) !! "confidence"
      = Some (PFloat (RN53 (inject_Z k / 100)))
    ∧ (py_float best - (1 # 200) <= inject_Z k / 100)%Q
    ∧ (inject_Z k / 100 <= py_float best + (1 # 200))%Q.
Proof.
  apply (confidence_near_max_probability Stub.forest Predict.sample).
  vm_compute. reflexivity.
Defined.

Lemma confidence_is_rounded_witness :
  ∃ c, ({[ "churn_risk" := PInt 1;
           "confidence" := PFloat (RN53 (60 # 100)) ]}
          : gmap string pyval) !! "confidence" = Some (PFloat c)
       ∧ py_round2 c = c.
Proof.
  apply (confidence_is_rounded Stub.hundred Predict.sample _
           (proj2 hundred_answers)).
  vm_compute. reflexivity.
Defined.
